(** * EcoLens: the two-stage comparison pipeline of [app.py]

    A shallow embedding of [ScoutAgent.search], [AnalystAgent.analyze],
    [AnalystAgent._mock_analysis] and the session-history part of [main],
    together with the properties stated about them.

    Conventions.
    - A Python [str] is represented by its UTF-8 encoding, a [string] of
      bytes.  Concatenation, prefix and substring tests are the same on the
      encoding; the built-in [len] counts code points, that is, the bytes
      which are not UTF-8 continuation bytes.
    - A Python call either returns a value or raises.  The calls the program
      makes to the outside (web search, sleep, chat model, clock, display)
      are recorded in a trace, and the answers of the outside are given by an
      environment indexed by the number of calls made so far, so that the
      outside may answer differently every time it is asked. *)

From Stdlib Require Import Strings.String Strings.Ascii Lists.List.
From Stdlib Require Import Arith.PeanoNat Bool.Bool Lia.
From Stdlib Require Import Numbers.DecimalString.
Import ListNotations.

Local Open Scope string_scope.

(** ** Python strings *)

Module PyStr.

(** The line feed written [\n] in the source. *)
Definition nl : string := String "010" EmptyString.

(** UTF-8 continuation bytes are [10xxxxxx], i.e. 128..191. *)
Definition is_continuation (c : ascii) : bool :=
  let n := nat_of_ascii c in ((128 <=? n) && (n <? 192))%nat.

(** [len(s)]: the number of code points of [s]. *)
Fixpoint len (s : string) : nat :=
  match s with
  | EmptyString => 0
  | String c s' => (if is_continuation c then 0 else 1) + len s'
  end.

(** Truth value of a string: [not s] holds exactly for the empty string. *)
Definition truthy (s : string) : bool :=
  match s with
  | EmptyString => false
  | String _ _ => true
  end.

(** [s.startswith(p)]. *)
Definition startswith (s p : string) : bool := String.prefix p s.

(** [p in s], as a proposition and as a test. *)
Definition contains (s p : string) : Prop :=
  exists before after, s = before ++ p ++ after.

Fixpoint is_in (p s : string) : bool :=
  String.prefix p s ||
  match s with
  | EmptyString => false
  | String _ s' => is_in p s'
  end.

(** Leading blanks and line feeds, as removed by [s.lstrip()]. *)
Definition is_space (c : ascii) : bool :=
  let n := nat_of_ascii c in ((n =? 32) || ((9 <=? n) && (n <=? 13)))%nat.

Fixpoint lstrip (s : string) : string :=
  match s with
  | EmptyString => EmptyString
  | String c s' => if is_space c then lstrip s' else s
  end.

End PyStr.

(** ** Outcomes, the outside world and the effect monad *)

Module Effects.

(** An error: an instance of [Exception], which is what the handlers
    [except Exception] of the program catch; [exn_str e] is what [str(e)]
    and an f-string field [{e}] render. *)
Record exn : Type := Exception { exn_str : string }.

Inductive Outcome (A : Type) : Type :=
| Returns (a : A)
| Raised (e : exn).
Arguments Returns {A} a.
Arguments Raised {A} e.

(** One entry of [search(..., advanced=True)]. *)
Record SearchResult : Type := mkSearchResult {
  title : string;
  url : string;
  description : string
}.

(** The iterator returned by the search provider: it yields finitely many
    results one after the other and then either stops or raises. *)
Inductive Generator : Type :=
| StopIteration
| RaiseNext (e : exn)
| Yield (res : SearchResult) (rest : Generator).

(** A chat message, [SystemMessage(content=...)] or
    [HumanMessage(content=...)]. *)
Inductive Message : Type :=
| SystemMessage (content : string)
| HumanMessage (content : string).

(** What [ChatOpenAI(model, temperature, openai_api_key).invoke(messages)]
    is given. *)
Record GenRequest : Type := mkGenRequest {
  model : string;
  temperature : nat;
  openai_api_key : string;
  messages : list Message
}.

Inductive Event : Type :=
| EvSearch (query : string) (num_results : nat) (advanced : bool)
| EvSleep (seconds : nat)
| EvGenerate (req : GenRequest)
| EvStrftime (format : string)
| EvMarkdown (body : string)
| EvText (body : string).

(** The running process as the program sees it: the calls made so far,
    oldest first, and [st.session_state.history] ([None] while the key
    ["history"] is absent). *)
Record World : Type := mkWorld {
  trace : list Event;
  history : option (list string)
}.

(** The answers of the outside.  The first argument of each oracle is the
    number of calls made before this one. *)
Record Env : Type := mkEnv {
  AI_AVAILABLE : bool;
  googlesearch : nat -> string -> nat -> bool -> Outcome Generator;
  chat_openai : nat -> GenRequest -> Outcome string;
  strftime : nat -> string -> string
}.

Definition M (A : Type) : Type := World -> Outcome A * World.

Definition ret {A} (a : A) : M A := fun w => (Returns a, w).

Definition bind {A B} (c : M A) (k : A -> M B) : M B :=
  fun w =>
    match c w with
    | (Returns a, w') => k a w'
    | (Raised e, w') => (Raised e, w')
    end.

Definition raise {A} (e : exn) : M A := fun w => (Raised e, w).

(** [try: body  except Exception as e: handler e]. *)
Definition try_except {A} (body : M A) (handler : exn -> M A) : M A :=
  fun w =>
    match body w with
    | (Returns a, w') => (Returns a, w')
    | (Raised e, w') => handler e w'
    end.

Definition lift {A} (o : Outcome A) : M A := fun w => (o, w).

(** Record a call to the outside. *)
Definition log (ev : Event) (w : World) : World :=
  mkWorld (trace w ++ [ev])%list (history w).

(** An outside call whose answer [answer n] depends on the number [n] of
    calls made before it. *)
Definition call {A} (ev : Event) (answer : nat -> Outcome A) : M A :=
  fun w => (answer (List.length (trace w)), log ev w).

Definition count_events (p : Event -> bool) (w : World) : nat :=
  List.length (List.filter p (trace w)).

Definition is_generate (ev : Event) : bool :=
  match ev with EvGenerate _ => true | _ => false end.

Definition is_sleep (ev : Event) : bool :=
  match ev with EvSleep _ => true | _ => false end.

End Effects.

Declare Scope py_scope.
Delimit Scope py_scope with py.
Notation "x <- c ;; k" := (Effects.bind c (fun x => k))
(at level 100, c at next level, right associativity) : py_scope.
Notation "c ;;; k" := (Effects.bind c (fun _ => k))
(at level 100, right associativity) : py_scope.

(** ** Agent 1: the resource scout *)

Module ScoutAgent.
Import PyStr Effects.

(** The f-string added to [results_text] for one result. *)
Definition entry (res : SearchResult) : string :=
  "Source: " ++ title res ++ nl ++
  "Link: " ++ url res ++ nl ++
  "Description: " ++ description res ++ nl ++ nl.

(** [for res in search_results: results_text += ...]. *)
Fixpoint for_res (search_results : Generator) (results_text : string)
  : Outcome string :=
  match search_results with
  | StopIteration => Returns results_text
  | RaiseNext e => Raised e
  | Yield res rest => for_res rest (results_text ++ entry res)
  end.

(** The marker line of the cached fallback data. *)
Definition SYSTEM_NOTE : string :=
  "[SYSTEM NOTE: Live Search blocked or limited. Using cached fallback data.]".

(** The f-string returned by the [except] branch. *)
Definition cached_fallback (mat_a mat_b : string) : string :=
  nl ++
  "            " ++ SYSTEM_NOTE ++ nl ++
  "            1. Comparative LCA of " ++ mat_a ++ " and " ++ mat_b ++ " (ScienceDirect)" ++ nl ++
  "               - Data indicates " ++ mat_a ++ " has lower GWP per kg than " ++ mat_b ++ "." ++ nl ++
  "            2. Environmental Impact Report 2024" ++ nl ++
  "               - " ++ mat_b ++ " requires significantly more water usage (approx 3x) compared to " ++ mat_a ++ "." ++ nl ++
  "            3. End-of-Life Scenarios" ++ nl ++
  "               - " ++ mat_a ++ " is biodegradable; " ++ mat_b ++ " is persistent in landfills." ++ nl ++
  "            ".

Definition query_of (mat_a mat_b : string) : string :=
  "Life cycle assessment " ++ mat_a ++ " vs " ++ mat_b ++
  " global warming potential filetype:pdf".

Section WithEnv.
Variable env : Env.

Definition search (mat_a mat_b : string) : M string :=
  let query := query_of mat_a mat_b in
  let results_text := "" in
  try_except
    (search_results <- call (EvSearch query 5 true)
                            (fun n => googlesearch env n query 5 true) ;;
     results_text <- lift (for_res search_results results_text) ;;
     if negb (truthy results_text)
     then raise (Exception "No results found")
     else ret results_text)%py
    (fun _ => ret (cached_fallback mat_a mat_b)).

End WithEnv.

End ScoutAgent.

(** ** Agent 2: the chief analyst *)

Module AnalystAgent.
Import PyStr Effects.

(** The object built by [AnalystAgent(api_key)]; the key is [None], or a
    string that may be empty. *)
Record t : Type := __init__ { api_key : option string }.

(** [not self.api_key] is false exactly for a non-empty string. *)
Definition key_truthy (k : option string) : bool :=
  match k with
  | None => false
  | Some s => truthy s
  end.

(** The key handed to the chat model; it is read on the live path only,
    where the key is a non-empty string. *)
Definition key_text (k : option string) : string :=
  match k with
  | None => ""
  | Some s => s
  end.

(** The local [winner] of [_mock_analysis]:
    [mat_a if len(mat_a) > len(mat_b) else mat_b]. *)
Definition winner (mat_a mat_b : string) : string :=
  if (len mat_b <? len mat_a)%nat then mat_a else mat_b.

(** The f-string returned by [_mock_analysis]; [winner] is assigned before
    it and does not occur in it. *)
Definition _mock_analysis (mat_a mat_b : string) : string :=
  let winner := winner mat_a mat_b in
  nl ++
  "        ### 📊 Automated Sustainability Matrix (Safe Mode)" ++ nl ++
  "        " ++ nl ++
  "        *Note: Running in fallback mode (No API Key detected). Displaying synthesized analysis.*" ++ nl ++
  nl ++
  "        | Impact Category | **" ++ mat_a ++ "** | **" ++ mat_b ++ "** | Status |" ++ nl ++
  "        | :--- | :--- | :--- | :--- |" ++ nl ++
  "        | **Global Warming (kg CO2)** | 2.5 (Est) | 8.1 (Est) | ✅ " ++ mat_a ++ " Better |" ++ nl ++
  "        | **Water Usage (L/kg)** | 500 | 9,000 | ✅ " ++ mat_a ++ " Better |" ++ nl ++
  "        | **Circular Economy** | Compostable | Landfill | ✅ " ++ mat_a ++ " Better |" ++ nl ++
  "        " ++ nl ++
  "        ### 💡 System Recommendation" ++ nl ++
  "        **" ++ mat_a ++ "** is recommended. The extracted data suggests it outperforms **" ++ mat_b ++ "** across all major environmental impact categories." ++ nl ++
  "        ".

Definition system_prompt : string :=
  nl ++
  "            You are an Expert Sustainable Engineer. " ++ nl ++
  "            Output a Markdown Table comparing the materials on: GWP, Water, Recyclability." ++ nl ++
  "            End with a 1-sentence recommendation." ++ nl ++
  "            ".

(** The request made of the chat model on the live path. *)
Definition live_request (self : t) (search_data mat_a mat_b : string)
  : GenRequest :=
  mkGenRequest "gpt-4" 0 (key_text (api_key self))
    [ SystemMessage system_prompt;
      HumanMessage ("Compare " ++ mat_a ++ " vs " ++ mat_b ++
                    " using this data: " ++ search_data) ].

(** The text returned when the live call raises [e]. *)
Definition error_report (e : exn) : string :=
  "Error in AI processing: " ++ exn_str e ++
  ". (Falling back to manual analysis...)".

Section WithEnv.
Variable env : Env.

Definition analyze (self : t) (search_data mat_a mat_b : string) : M string :=
  if negb (key_truthy (api_key self)) || negb (AI_AVAILABLE env)
  then
    (call (EvSleep 2) (fun _ => Returns tt) ;;;
     ret (_mock_analysis mat_a mat_b))%py
  else
    try_except
      (let req := live_request self search_data mat_a mat_b in
       response <- call (EvGenerate req) (fun n => chat_openai env n req) ;;
       ret response)%py
      (fun e => ret (error_report e)).

End WithEnv.

End AnalystAgent.

(** ** The page: one run of [main] per interaction *)

Module App.
Import PyStr Effects.

(** What the operator has entered when the script runs: the three text
    inputs and whether the button was pressed. *)
Record Inputs : Type := mkInputs {
  openai_key : string;
  mat_a : string;
  mat_b : string;
  button : bool
}.

(** [str(n)] for a non-negative integer. *)
Definition str_of_nat (n : nat) : string :=
  NilZero.string_of_uint (Nat.to_uint n).

(** [if "history" not in st.session_state: st.session_state.history = []]. *)
Definition init_history : M unit :=
  fun w =>
    match history w with
    | None => (Returns tt, mkWorld (trace w) (Some []))
    | Some _ => (Returns tt, w)
    end.

(** Reading [st.session_state.history]; an absent key raises. *)
Definition get_history : M (list string) :=
  fun w =>
    match history w with
    | Some h => (Returns h, w)
    | None => (Raised (Exception "st.session_state has no attribute history"), w)
    end.

(** [st.session_state.history.append(item)]. *)
Definition history_append (item : string) : M unit :=
  (h <- get_history ;;
   fun w => (Returns tt, mkWorld (trace w) (Some (h ++ [item])%list)))%py.

Definition st_text (body : string) : M unit :=
  call (EvText body) (fun _ => Returns tt).

Definition st_markdown (body : string) : M unit :=
  call (EvMarkdown body) (fun _ => Returns tt).

(** [for i, item in enumerate(items): st.text(f"{i+1}. {item}")], with [i]
    the index of the head of [items]. *)
Fixpoint show_items (i : nat) (items : list string) : M unit :=
  match items with
  | [] => ret tt
  | item :: rest =>
      (st_text (str_of_nat (i + 1) ++ ". " ++ item) ;;;
       show_items (S i) rest)%py
  end.

(** The record appended for one comparison. *)
Definition label (timestamp mat_a mat_b : string) : string :=
  "[" ++ timestamp ++ "] " ++ mat_a ++ " vs " ++ mat_b.

Section WithEnv.
Variable env : Env.

(** The fixed page furniture (title, headers, columns, status boxes) has no
    effect on the session state and is left out of the trace. *)
Definition main (ui : Inputs) : M unit :=
  (init_history ;;;
   items <- get_history ;;
   show_items 0 items ;;;
   if button ui then
     raw_data <- ScoutAgent.search env (mat_a ui) (mat_b ui) ;;
     let analyst := AnalystAgent.__init__ (Some (openai_key ui)) in
     final_report <-
       AnalystAgent.analyze env analyst raw_data (mat_a ui) (mat_b ui) ;;
     st_markdown final_report ;;;
     timestamp <- call (EvStrftime "%H:%M:%S")
                       (fun n => Returns (strftime env n "%H:%M:%S")) ;;
     history_append (label timestamp (mat_a ui) (mat_b ui))
   else ret tt)%py.

(** The script is run once for each interaction of the session. *)
Fixpoint session (interactions : list Inputs) : M unit :=
  match interactions with
  | [] => ret tt
  | ui :: rest => (main ui ;;; session rest)%py
  end.

End WithEnv.

(** A fresh process: nothing called yet, no ["history"] key. *)
Definition fresh : World := mkWorld [] None.

End App.

(** ** Test doubles for the outside *)

Module Doubles.
Import PyStr Effects.

Definition hit1 : SearchResult :=
  mkSearchResult "LCA of bamboo textiles" "https://example.org/bamboo.pdf"
                 "Cradle-to-gate assessment of bamboo viscose.".

Definition hit2 : SearchResult :=
  mkSearchResult "Cotton water footprint" "https://example.org/cotton.pdf"
                 "Blue and green water use of cotton lint.".

Definition canned_answer : string :=
  "| Impact | Bamboo Fiber | Cotton |" ++ nl ++ "Bamboo Fiber is preferable.".

Definition clock (n : nat) (format : string) : string := "12:00:00".

(** The search is refused and the chat model rejects the key. *)
Definition blocked : Env :=
  mkEnv true
        (fun _ _ _ _ => Raised (Exception "429 Too Many Requests"))
        (fun _ _ => Raised (Exception "Incorrect API key provided"))
        clock.

(** The search answers, with nothing. *)
Definition no_hits : Env :=
  mkEnv true
        (fun _ _ _ _ => Returns StopIteration)
        (fun _ _ => Returns canned_answer)
        clock.

(** The search yields one result and then breaks; the chat integration is
    not installed. *)
Definition half_way : Env :=
  mkEnv false
        (fun _ _ _ _ => Returns (Yield hit1 (RaiseNext (Exception "timed out"))))
        (fun _ _ => Returns canned_answer)
        clock.

(** Both providers answer. *)
Definition live : Env :=
  mkEnv true
        (fun _ _ _ _ => Returns (Yield hit1 (Yield hit2 StopIteration)))
        (fun _ _ => Returns canned_answer)
        clock.

Definition with_key : AnalystAgent.t := AnalystAgent.__init__ (Some "sk-test").
Definition without_key : AnalystAgent.t := AnalystAgent.__init__ None.
Definition blank_key : AnalystAgent.t := AnalystAgent.__init__ (Some "").

End Doubles.

(** ** Vocabulary of the properties *)

Module Observations.
Import PyStr Effects ScoutAgent.

(** The results a generator yields before it stops or raises. *)
Fixpoint yielded (g : Generator) : list SearchResult :=
  match g with
  | StopIteration => []
  | RaiseNext _ => []
  | Yield res rest => res :: yielded rest
  end.

(** Whether iterating over the generator ends by raising. *)
Fixpoint breaks (g : Generator) : bool :=
  match g with
  | StopIteration => false
  | RaiseNext _ => true
  | Yield _ rest => breaks rest
  end.

(** The search call raises, at once or while it is iterated over. *)
Definition provider_raises (o : Outcome Generator) : bool :=
  match o with
  | Raised _ => true
  | Returns g => breaks g
  end.

(** The search call ends normally with zero results. *)
Definition zero_results (o : Outcome Generator) : bool :=
  match o with
  | Returns StopIteration => true
  | _ => false
  end.

(** The answer of the provider to the query of [search mat_a mat_b] made
    in world [w]. *)
Definition answer (env : Env) (mat_a mat_b : string) (w : World)
  : Outcome Generator :=
  googlesearch env (List.length (trace w)) (query_of mat_a mat_b) 5 true.

(** The sentence that recommends [subject]. *)
Definition recommendation (subject : string) : string :=
  "**" ++ subject ++ "** is recommended.".

(** A row of the comparison table whose Status column names [better]. *)
Definition status_row (category value_a value_b better : string) : string :=
  "| **" ++ category ++ "** | " ++ value_a ++ " | " ++ value_b ++
  " | ✅ " ++ better ++ " Better |".

(** The three impact rows, as laid out in the report. *)
Definition impact_rows (better : string) : string :=
  "        " ++ status_row "Global Warming (kg CO2)" "2.5 (Est)" "8.1 (Est)" better ++ nl ++
  "        " ++ status_row "Water Usage (L/kg)" "500" "9,000" better ++ nl ++
  "        " ++ status_row "Circular Economy" "Compostable" "Landfill" better ++ nl.

(** The comparison table: heading, alignment row and the impact rows. *)
Definition comparison_table (mat_a mat_b better : string) : string :=
  "        | Impact Category | **" ++ mat_a ++ "** | **" ++ mat_b ++ "** | Status |" ++ nl ++
  "        | :--- | :--- | :--- | :--- |" ++ nl ++
  impact_rows better.

(** The agent takes the fallback path: no usable key, or no chat
    integration. *)
Definition fallback_mode (env : Env) (self : AnalystAgent.t) : bool :=
  negb (AnalystAgent.key_truthy (AnalystAgent.api_key self)) ||
  negb (AI_AVAILABLE env).

(** The session log as a list; an absent ["history"] key holds nothing. *)
Definition records (w : World) : list string :=
  match history w with
  | Some h => h
  | None => []
  end.

End Observations.

(** ** Vocabulary of the runs of the page *)

Module Accounting.
Import PyStr Effects.

(** What the sidebar loop displays for [items], the first of which has
    index [i]: one numbered line per item, numbered from [i + 1]. *)
Definition listing (i : nat) (items : list string) : list Event :=
  map (fun p => EvText (App.str_of_nat (fst p + 1) ++ ". " ++ snd p))
      (combine (seq i (List.length items)) items).

Definition is_search (ev : Event) : bool :=
  match ev with EvSearch _ _ _ => true | _ => false end.

Definition is_strftime (ev : Event) : bool :=
  match ev with EvStrftime _ => true | _ => false end.

Definition is_markdown (ev : Event) : bool :=
  match ev with EvMarkdown _ => true | _ => false end.

Definition is_text (ev : Event) : bool :=
  match ev with EvText _ => true | _ => false end.

(** The one call by which [analyze] does its work: the sleep of the
    fallback path or the chat call of the live path. *)
Definition is_analysis (ev : Event) : bool :=
  is_sleep ev || is_generate ev.

(** The number of runs of a session in which the button was pressed. *)
Definition presses (interactions : list App.Inputs) : nat :=
  List.length (filter App.button interactions).

(** The number of events of a list that satisfy [p]. *)
Definition count (p : Event -> bool) (evs : list Event) : nat :=
  List.length (filter p evs).

(** The agent that [main] builds from the key typed in the sidebar. *)
Definition analyst_of (ui : App.Inputs) : AnalystAgent.t :=
  AnalystAgent.__init__ (Some (App.openai_key ui)).

(** The world in which the pipeline of a run starts: the sidebar has
    listed the records of [w] and the ["history"] key is present. *)
Definition after_sidebar (w : World) : World :=
  mkWorld (trace w ++ listing 0 (Observations.records w))%list
          (Some (Observations.records w)).

End Accounting.

(** * Properties *)

(** ** Facts about strings *)

Module StrFacts.
Import PyStr.

Lemma append_assoc (s t u : string) : (s ++ t) ++ u = s ++ (t ++ u).
Proof.
  induction s as [| c s IH]; simpl; [reflexivity | now rewrite IH].
Qed.

Lemma append_nil_r (s : string) : s ++ "" = s.
Proof.
  induction s as [| c s IH]; simpl; [reflexivity | now rewrite IH].
Qed.

Lemma concat_cons (x : string) (xs : list string) :
  String.concat "" (x :: xs) = x ++ String.concat "" xs.
Proof.
  destruct xs as [| y ys]; simpl; [now rewrite append_nil_r | reflexivity].
Qed.

Lemma prefix_append (p s : string) :
  String.prefix p s = true <-> exists rest, s = p ++ rest.
Proof.
  revert s; induction p as [| c p IH]; intros s.
  - destruct s; simpl; split; intros _; eauto.
  - destruct s as [| d s]; simpl.
    + split; [discriminate | intros [rest H]; discriminate].
    + destruct (Ascii.ascii_dec c d) as [-> | Hcd].
      * rewrite IH. split; intros [rest H]; exists rest.
        -- now rewrite H.
        -- now inversion H.
      * split; [discriminate | intros [rest H]; simpl in H; congruence].
Qed.

(** The test [is_in] decides [contains]. *)
Lemma is_in_contains (p s : string) : is_in p s = true <-> contains s p.
Proof.
  induction s as [| c s IH].
  - cbn [is_in]. rewrite orb_false_r, prefix_append. split.
    + intros [rest H]. exists "", rest. exact H.
    + intros ([| b before] & after & H); simpl in H.
      * now exists after.
      * discriminate.
  - cbn [is_in]. rewrite orb_true_iff, prefix_append, IH. split.
    + intros [[rest H] | (before & after & H)].
      * exists "", rest. exact H.
      * exists (String c before), after. simpl. now rewrite H.
    + intros ([| b before] & after & H); simpl in H.
      * left. now exists after.
      * right. inversion H. now exists before, after.
Qed.

Lemma not_contains (p s : string) : is_in p s = false -> ~ contains s p.
Proof.
  intros H Hc. apply is_in_contains in Hc. congruence.
Qed.

Lemma truthy_append (s t : string) : truthy s = true -> truthy (s ++ t) = true.
Proof. destruct s; simpl; [discriminate | reflexivity]. Qed.

Lemma contains_at_head (s p : string) :
  (exists rest, s = p ++ rest) -> contains s p.
Proof. intros [rest H]. exists "", rest. exact H. Qed.

Lemma starts_nil (s : string) : exists rest, s = "" ++ rest.
Proof. now exists s. Qed.

Lemma starts_end (x s : string) : exists rest, x ++ s = x ++ rest.
Proof. now exists s. Qed.

Lemma starts_char (c : ascii) (s p : string) :
  (exists rest, s = p ++ rest) ->
  exists rest, String c s = String c p ++ rest.
Proof. intros [rest H]. exists rest. simpl. now rewrite H. Qed.

Lemma starts_var (x s p : string) :
  (exists rest, s = p ++ rest) ->
  exists rest, x ++ s = (x ++ p) ++ rest.
Proof. intros [rest H]. exists rest. now rewrite append_assoc, H. Qed.

Lemma contains_tail (c : ascii) (s p : string) :
  contains s p -> contains (String c s) p.
Proof.
  intros (before & after & H). exists (String c before), after.
  simpl. now rewrite H.
Qed.

Lemma contains_after (x s p : string) :
  contains s p -> contains (x ++ s) p.
Proof.
  intros (before & after & H). exists (x ++ before), after.
  now rewrite append_assoc, H.
Qed.

End StrFacts.

(** [s = before ++ p ++ after] for texts built with [++] from literals and
    variables: re-associate to the right and compare. *)
Ltac same_text :=
  unfold PyStr.nl;
  repeat (progress cbn [append] || rewrite StrFacts.append_assoc
          || rewrite StrFacts.append_nil_r);
  reflexivity.

Ltac found_between before after :=
  exists before, after; same_text.

(** Look for a text inside another one, both in right-nested form: compare
    at the head, else move one character or one variable on. *)
Ltac starts_here :=
  repeat (apply StrFacts.starts_char || apply StrFacts.starts_var);
  (apply StrFacts.starts_nil || apply StrFacts.starts_end).

Ltac find_text :=
  first [ apply StrFacts.contains_at_head; starts_here
        | apply StrFacts.contains_tail; find_text
        | apply StrFacts.contains_after; find_text ].

(** ** The scout *)

Module ScoutSpec.
Import PyStr Effects ScoutAgent Observations StrFacts.

Lemma for_res_breaks (g : Generator) (acc : string) :
  breaks g = true -> exists e, for_res g acc = Raised e.
Proof.
  revert acc; induction g as [| e | res rest IH]; intros acc H; simpl in *.
  - discriminate.
  - now exists e.
  - now apply IH.
Qed.

Lemma for_res_completes (g : Generator) (acc : string) :
  breaks g = false ->
  for_res g acc = Returns (acc ++ String.concat "" (map entry (yielded g))).
Proof.
  revert acc; induction g as [| e | res rest IH]; intros acc H.
  - simpl. now rewrite append_nil_r.
  - discriminate.
  - cbn [for_res yielded map]. rewrite IH by exact H.
    now rewrite concat_cons, append_assoc.
Qed.

Lemma entry_truthy (res : SearchResult) : truthy (entry res) = true.
Proof. reflexivity. Qed.

(** [search] returns, whatever the provider does, and makes exactly one
    search call. *)
Lemma search_returns (env : Env) (mat_a mat_b : string) (w : World) :
  exists text,
    search env mat_a mat_b w =
    (Returns text, log (EvSearch (query_of mat_a mat_b) 5 true) w).
Proof.
  unfold search, try_except, bind, call, lift, raise, ret.
  destruct (googlesearch env _ _ _ _) as [g | e]; [| eauto].
  destruct (for_res g "") as [text | e]; [| eauto].
  destruct (truthy text); simpl; eauto.
Qed.

Lemma search_falls_back (env : Env) (mat_a mat_b : string) (w : World) :
  provider_raises (answer env mat_a mat_b w) = true \/
  zero_results (answer env mat_a mat_b w) = true ->
  fst (search env mat_a mat_b w) = Returns (cached_fallback mat_a mat_b).
Proof.
  unfold answer, search, try_except, bind, call, lift, raise, ret.
  destruct (googlesearch env _ _ _ _) as [g | e]; simpl.
  - intros [H | H].
    + destruct (for_res_breaks g "" H) as [e ->]. reflexivity.
    + destruct g; try discriminate. reflexivity.
  - reflexivity.
Qed.

Lemma fallback_contains_mat_a (mat_a mat_b : string) :
  contains (cached_fallback mat_a mat_b) mat_a.
Proof.
  unfold cached_fallback.
  match goal with
  | |- contains (?n ++ ?i ++ ?note ++ ?n' ++ ?l1 ++ mat_a ++ ?rest) mat_a =>
      found_between (n ++ i ++ note ++ n' ++ l1) rest
  end.
Qed.

Lemma fallback_contains_mat_b (mat_a mat_b : string) :
  contains (cached_fallback mat_a mat_b) mat_b.
Proof.
  unfold cached_fallback.
  match goal with
  | |- contains (?n ++ ?i ++ ?note ++ ?n' ++ ?l1 ++ mat_a ++ ?l2 ++ mat_b ++ ?rest)
                mat_b =>
      found_between (n ++ i ++ note ++ n' ++ l1 ++ mat_a ++ l2) rest
  end.
Qed.

Lemma entry_contains_fields (res : SearchResult) :
  contains (entry res) (title res) /\
  contains (entry res) (url res) /\
  contains (entry res) (description res).
Proof.
  unfold entry. repeat split.
  - found_between "Source: " (nl ++ "Link: " ++ url res ++ nl ++
                              "Description: " ++ description res ++ nl ++ nl).
  - found_between ("Source: " ++ title res ++ nl ++ "Link: ")
                  (nl ++ "Description: " ++ description res ++ nl ++ nl).
  - found_between ("Source: " ++ title res ++ nl ++ "Link: " ++ url res ++ nl ++
                   "Description: ") (nl ++ nl).
Qed.

(** C1, amended.  For every pair of subject names, [search] returns a text
    and never raises.  Whenever the search call raises (at once or while its
    results are read) or yields zero results, the text is the cached fallback
    of the two names; once its leading line feed and indentation are
    stripped, that text begins with the fallback marker, and it contains both
    names verbatim. *)
Theorem search_never_raises_and_falls_back
  (env : Env) (mat_a mat_b : string) (w : World) :
  (exists text, fst (search env mat_a mat_b w) = Returns text) /\
  (provider_raises (answer env mat_a mat_b w) = true \/
   zero_results (answer env mat_a mat_b w) = true ->
   fst (search env mat_a mat_b w) = Returns (cached_fallback mat_a mat_b) /\
   startswith (lstrip (cached_fallback mat_a mat_b)) SYSTEM_NOTE = true /\
   contains (cached_fallback mat_a mat_b) mat_a /\
   contains (cached_fallback mat_a mat_b) mat_b).
Proof.
  split.
  - destruct (search_returns env mat_a mat_b w) as [text H].
    exists text. now rewrite H.
  - intros H. split; [now apply search_falls_back |].
    split; [reflexivity |].
    split; [apply fallback_contains_mat_a | apply fallback_contains_mat_b].
Qed.

Lemma search_never_raises_and_falls_back_witness :
  provider_raises (answer Doubles.blocked "Bamboo Fiber" "Cotton" App.fresh) = true /\
  fst (search Doubles.blocked "Bamboo Fiber" "Cotton" App.fresh) =
  Returns (cached_fallback "Bamboo Fiber" "Cotton").
Proof.
  split; [reflexivity |].
  apply (proj2 (search_never_raises_and_falls_back
                  Doubles.blocked "Bamboo Fiber" "Cotton" App.fresh)).
  left; reflexivity.
Defined.

(** C1 as first stated fails: the fallback text returned when the search is
    refused begins with a line feed, not with the marker. *)
Lemma search_fallback_does_not_start_with_marker :
  provider_raises (answer Doubles.blocked "Bamboo Fiber" "Cotton" App.fresh) = true /\
  exists text,
    fst (search Doubles.blocked "Bamboo Fiber" "Cotton" App.fresh) = Returns text /\
    startswith text SYSTEM_NOTE = false.
Proof.
  split; [reflexivity |].
  exists (cached_fallback "Bamboo Fiber" "Cotton").
  split; reflexivity.
Qed.

(** C7.  When the search call ends normally with at least one result,
    [search] returns the entries of the results, one per result and in the
    order in which the provider yielded them, joined with nothing in between;
    each entry holds the title, the link and the description of its result
    on lines of their own. *)
Theorem search_concatenates_results_in_order
  (env : Env) (mat_a mat_b : string) (w : World) (g : Generator) :
  answer env mat_a mat_b w = Returns g ->
  breaks g = false ->
  yielded g <> [] ->
  fst (search env mat_a mat_b w) =
  Returns (String.concat "" (map entry (yielded g))) /\
  Forall (fun res =>
            entry res =
            "Source: " ++ title res ++ nl ++
            "Link: " ++ url res ++ nl ++
            "Description: " ++ description res ++ nl ++ nl /\
            contains (entry res) (title res) /\
            contains (entry res) (url res) /\
            contains (entry res) (description res))
         (yielded g).
Proof.
  intros Hans Hok Hne. split.
  - unfold answer in Hans.
    unfold search, try_except, bind, call, lift, raise, ret.
    rewrite Hans, (for_res_completes g "" Hok). cbn [append].
    destruct (yielded g) as [| res rest]; [contradiction |].
    cbn [map]. rewrite concat_cons.
    now rewrite (truthy_append _ _ (entry_truthy res)).
  - apply Forall_forall. intros res _.
    split; [reflexivity | apply entry_contains_fields].
Qed.

Lemma search_concatenates_results_in_order_witness :
  fst (search Doubles.live "Bamboo Fiber" "Cotton" App.fresh) =
  Returns (entry Doubles.hit1 ++ entry Doubles.hit2).
Proof.
  refine (eq_trans
    (proj1 (search_concatenates_results_in_order
              Doubles.live "Bamboo Fiber" "Cotton" App.fresh
              (Yield Doubles.hit1 (Yield Doubles.hit2 StopIteration))
              eq_refl eq_refl _)) _).
  - discriminate.
  - reflexivity.
Defined.

End ScoutSpec.

(** ** The analyst *)

Module AnalystSpec.
Import PyStr Effects AnalystAgent Observations StrFacts.

Lemma count_events_log (p : Event -> bool) (ev : Event) (w : World) :
  count_events p (log ev w) =
  (count_events p w + (if p ev then 1 else 0))%nat.
Proof.
  unfold count_events, log. cbn [trace].
  rewrite filter_app, length_app. cbn [filter].
  destruct (p ev); reflexivity.
Qed.

Lemma mock_contains_recommendation (mat_a mat_b : string) :
  contains (_mock_analysis mat_a mat_b) (recommendation mat_a).
Proof.
  unfold _mock_analysis, recommendation, nl. cbn [append].
  find_text.
Qed.

Lemma mock_contains_table (mat_a mat_b : string) :
  contains (_mock_analysis mat_a mat_b) (comparison_table mat_a mat_b mat_a).
Proof.
  unfold _mock_analysis, comparison_table, impact_rows, status_row, nl.
  repeat (progress cbn [append] || rewrite append_assoc).
  find_text.
Qed.

Lemma mock_contains_rows (mat_a mat_b : string) :
  contains (_mock_analysis mat_a mat_b) (impact_rows mat_a).
Proof.
  unfold _mock_analysis, impact_rows, status_row, nl.
  repeat (progress cbn [append] || rewrite append_assoc).
  find_text.
Qed.

(** The fallback path: two seconds of sleep, then the templated report. *)
Lemma analyze_fallback_run
  (env : Env) (self : t) (search_data mat_a mat_b : string) (w : World) :
  fallback_mode env self = true ->
  analyze env self search_data mat_a mat_b w =
  (Returns (_mock_analysis mat_a mat_b), log (EvSleep 2) w).
Proof.
  unfold fallback_mode, analyze. intros ->. reflexivity.
Qed.

(** The live path: one call to the chat model, whose outcome decides. *)
Lemma analyze_live_run
  (env : Env) (self : t) (search_data mat_a mat_b : string) (w : World) :
  fallback_mode env self = false ->
  analyze env self search_data mat_a mat_b w =
  (Returns
     match chat_openai env (List.length (trace w))
                       (live_request self search_data mat_a mat_b) with
     | Returns text => text
     | Raised e => error_report e
     end,
   log (EvGenerate (live_request self search_data mat_a mat_b)) w).
Proof.
  unfold fallback_mode, analyze. intros ->.
  unfold try_except, bind, call, ret.
  destruct (chat_openai env _ _); reflexivity.
Qed.

Lemma analyze_returns
  (env : Env) (self : t) (search_data mat_a mat_b : string) (w : World) :
  exists text ev,
    analyze env self search_data mat_a mat_b w = (Returns text, log ev w).
Proof.
  destruct (fallback_mode env self) eqn:Hmode.
  - rewrite analyze_fallback_run by exact Hmode. eauto.
  - rewrite analyze_live_run by exact Hmode. eauto.
Qed.

Lemma live_mode (env : Env) (self : t) :
  key_truthy (api_key self) = true -> AI_AVAILABLE env = true ->
  fallback_mode env self = false.
Proof. unfold fallback_mode. now intros -> ->. Qed.

(** C2.  With a credential (and the chat integration installed, so that the
    live call is made), when the live call raises an error [e], [analyze]
    does not raise: it returns the diagnostic text of [e], which begins with
    the words "Error in AI processing"; this text is the final report, it is
    not the templated report, and the run is the one chat call, with no
    sleep of the fallback path. *)
Theorem analyze_reports_live_failure
  (env : Env) (self : t) (search_data mat_a mat_b : string) (w : World)
  (e : exn) :
  key_truthy (api_key self) = true ->
  AI_AVAILABLE env = true ->
  chat_openai env (List.length (trace w))
              (live_request self search_data mat_a mat_b) = Raised e ->
  analyze env self search_data mat_a mat_b w =
  (Returns (error_report e),
   log (EvGenerate (live_request self search_data mat_a mat_b)) w) /\
  startswith (error_report e) "Error in AI processing: " = true /\
  contains (error_report e) "Error" /\
  error_report e <> _mock_analysis mat_a mat_b /\
  count_events is_sleep (snd (analyze env self search_data mat_a mat_b w)) =
  count_events is_sleep w.
Proof.
  intros Hkey Hai Hcall.
  assert (Hrun : analyze env self search_data mat_a mat_b w =
                 (Returns (error_report e),
                  log (EvGenerate (live_request self search_data mat_a mat_b)) w)).
  { rewrite analyze_live_run by now apply live_mode. now rewrite Hcall. }
  split; [exact Hrun |].
  split; [apply prefix_append; unfold error_report; eexists; reflexivity |].
  split; [unfold error_report; cbn [append]; find_text |].
  split; [unfold error_report, _mock_analysis, nl; cbn [append]; discriminate |].
  rewrite Hrun. cbn [snd]. rewrite count_events_log. cbn. lia.
Qed.

Lemma analyze_reports_live_failure_witness :
  fst (analyze Doubles.blocked Doubles.with_key "evidence" "Bamboo Fiber" "Cotton"
               App.fresh) =
  Returns "Error in AI processing: Incorrect API key provided. (Falling back to manual analysis...)".
Proof.
  refine (f_equal fst
    (proj1 (analyze_reports_live_failure
              Doubles.blocked Doubles.with_key "evidence" "Bamboo Fiber" "Cotton"
              App.fresh (Exception "Incorrect API key provided")
              eq_refl eq_refl eq_refl))).
Defined.

(** C4.  Without a credential ([None] or the empty string), or without the
    chat integration, [analyze] returns the templated report of the two
    names; the report contains the comparison table with its three impact
    rows and a recommendation sentence naming one of the two subjects; no
    call to the chat model is made. *)
Theorem analyze_without_credential_uses_template
  (env : Env) (self : t) (search_data mat_a mat_b : string) (w : World) :
  key_truthy (api_key self) = false \/ AI_AVAILABLE env = false ->
  analyze env self search_data mat_a mat_b w =
  (Returns (_mock_analysis mat_a mat_b), log (EvSleep 2) w) /\
  contains (_mock_analysis mat_a mat_b) (comparison_table mat_a mat_b mat_a) /\
  (contains (_mock_analysis mat_a mat_b) (recommendation mat_a) \/
   contains (_mock_analysis mat_a mat_b) (recommendation mat_b)) /\
  count_events is_generate (snd (analyze env self search_data mat_a mat_b w)) =
  count_events is_generate w.
Proof.
  intros Hno.
  assert (Hmode : fallback_mode env self = true).
  { unfold fallback_mode. destruct Hno as [-> | ->]; [reflexivity |].
    apply orb_true_r. }
  split; [now apply analyze_fallback_run |].
  split; [apply mock_contains_table |].
  split; [left; apply mock_contains_recommendation |].
  rewrite analyze_fallback_run by exact Hmode.
  cbn [snd]. rewrite count_events_log. cbn. lia.
Qed.

Lemma analyze_without_credential_uses_template_witness :
  fst (analyze Doubles.live Doubles.blank_key "evidence" "Bamboo Fiber" "Cotton"
               App.fresh) =
  Returns (_mock_analysis "Bamboo Fiber" "Cotton").
Proof.
  refine (f_equal fst
    (proj1 (analyze_without_credential_uses_template
              Doubles.live Doubles.blank_key "evidence" "Bamboo Fiber" "Cotton"
              App.fresh (or_introl eq_refl)))).
Defined.

(** C5.  With a credential (and the chat integration installed), when the
    chat call returns the text [T], [analyze] returns exactly [T]; the call
    is made once, at temperature zero. *)
Theorem analyze_returns_live_text_unchanged
  (env : Env) (self : t) (search_data mat_a mat_b : string) (w : World)
  (T : string) :
  key_truthy (api_key self) = true ->
  AI_AVAILABLE env = true ->
  chat_openai env (List.length (trace w))
              (live_request self search_data mat_a mat_b) = Returns T ->
  analyze env self search_data mat_a mat_b w =
  (Returns T, log (EvGenerate (live_request self search_data mat_a mat_b)) w) /\
  temperature (live_request self search_data mat_a mat_b) = 0 /\
  count_events is_generate (snd (analyze env self search_data mat_a mat_b w)) =
  S (count_events is_generate w).
Proof.
  intros Hkey Hai Hcall.
  assert (Hrun : analyze env self search_data mat_a mat_b w =
                 (Returns T,
                  log (EvGenerate (live_request self search_data mat_a mat_b)) w)).
  { rewrite analyze_live_run by now apply live_mode. now rewrite Hcall. }
  split; [exact Hrun |].
  split; [reflexivity |].
  rewrite Hrun. cbn [snd]. rewrite count_events_log. cbn. lia.
Qed.

Lemma analyze_returns_live_text_unchanged_witness :
  fst (analyze Doubles.live Doubles.with_key "evidence" "Bamboo Fiber" "Cotton"
               App.fresh) =
  Returns Doubles.canned_answer.
Proof.
  refine (f_equal fst
    (proj1 (analyze_returns_live_text_unchanged
              Doubles.live Doubles.with_key "evidence" "Bamboo Fiber" "Cotton"
              App.fresh Doubles.canned_answer eq_refl eq_refl eq_refl))).
Defined.

(** C3, at the input where the code departs from it.  For "Cotton" and
    "Bamboo Fiber" the winner computed by [_mock_analysis] is the longer
    name, "Bamboo Fiber", yet the report recommends "Cotton" and nowhere
    recommends "Bamboo Fiber": the template names its first subject.  With
    the two names exchanged the recommended subject is "Bamboo Fiber". *)
Theorem mock_analysis_recommends_shorter_first_subject :
  (len "Cotton" < len "Bamboo Fiber")%nat /\
  winner "Cotton" "Bamboo Fiber" = "Bamboo Fiber" /\
  contains (_mock_analysis "Cotton" "Bamboo Fiber") (recommendation "Cotton") /\
  ~ contains (_mock_analysis "Cotton" "Bamboo Fiber")
             (recommendation "Bamboo Fiber") /\
  contains (_mock_analysis "Bamboo Fiber" "Cotton")
           (recommendation "Bamboo Fiber").
Proof.
  split; [vm_compute; lia |].
  split; [reflexivity |].
  split; [apply mock_contains_recommendation |].
  split; [apply not_contains; vm_compute; reflexivity |].
  apply mock_contains_recommendation.
Qed.

(** C9, at an input where the code departs from it.  "Hemp" and "Jute" have
    equal lengths and the winner computed by [_mock_analysis] is the second
    name, "Jute", yet the report recommends "Hemp" and nowhere recommends
    "Jute". *)
Theorem mock_analysis_tie_recommends_first_subject :
  len "Hemp" = len "Jute" /\
  winner "Hemp" "Jute" = "Jute" /\
  contains (_mock_analysis "Hemp" "Jute") (recommendation "Hemp") /\
  ~ contains (_mock_analysis "Hemp" "Jute") (recommendation "Jute").
Proof.
  split; [reflexivity |].
  split; [reflexivity |].
  split; [apply mock_contains_recommendation |].
  apply not_contains; vm_compute; reflexivity.
Qed.

(** C10, amended.  For every pair of subject names, each of the three
    impact rows of the templated report names the first subject in its
    Status column. *)
Theorem mock_analysis_rows_favour_first_subject (mat_a mat_b : string) :
  contains (_mock_analysis mat_a mat_b)
    ("        " ++ status_row "Global Warming (kg CO2)" "2.5 (Est)" "8.1 (Est)" mat_a ++ nl ++
     "        " ++ status_row "Water Usage (L/kg)" "500" "9,000" mat_a ++ nl ++
     "        " ++ status_row "Circular Economy" "Compostable" "Landfill" mat_a ++ nl) /\
  forall category value_a value_b,
    contains (status_row category value_a value_b mat_a)
             ("✅ " ++ mat_a ++ " Better").
Proof.
  split; [apply mock_contains_rows |].
  intros category value_a value_b.
  unfold status_row. cbn [append]. find_text.
Qed.

(** C10 as first stated fails: "Polyester" is longer than "Jute", the rows
    name "Jute", and the recommendation sentence names "Jute" too, not
    "Polyester". *)
Lemma mock_analysis_recommendation_is_not_longer_second :
  (len "Jute" <= len "Polyester")%nat /\
  contains (_mock_analysis "Jute" "Polyester") (impact_rows "Jute") /\
  contains (_mock_analysis "Jute" "Polyester") (recommendation "Jute") /\
  ~ contains (_mock_analysis "Jute" "Polyester") (recommendation "Polyester").
Proof.
  split; [vm_compute; lia |].
  split; [apply mock_contains_rows |].
  split; [apply mock_contains_recommendation |].
  apply not_contains; vm_compute; reflexivity.
Qed.

End AnalystSpec.

(** ** The pipeline and the session log *)

Module PipelineSpec.
Import PyStr Effects Observations StrFacts.
Import App.

Lemma bind_returns {A B} (c : M A) (k : A -> M B) (w w' : World) (a : A) :
  c w = (Returns a, w') -> bind c k w = k a w'.
Proof. unfold bind. now intros ->. Qed.

Lemma init_history_run (w : World) :
  exists w',
    init_history w = (Returns tt, w') /\
    history w' = Some (records w) /\ trace w' = trace w.
Proof.
  unfold init_history, records.
  destruct (history w) as [h |] eqn:Hh; eexists; repeat split; eauto.
Qed.

Lemma get_history_run (w : World) (h : list string) :
  history w = Some h -> get_history w = (Returns h, w).
Proof. unfold get_history. now intros ->. Qed.

Lemma show_items_run (items : list string) (i : nat) (w : World) :
  exists w', show_items i items w = (Returns tt, w') /\ history w' = history w.
Proof.
  revert i w; induction items as [| item rest IH]; intros i w.
  - exists w. split; reflexivity.
  - cbn [show_items]. unfold st_text.
    destruct (IH (S i) (log (EvText (str_of_nat (i + 1) ++ ". " ++ item)) w))
      as (w' & Hrun & Hhist).
    exists w'. split; [| exact Hhist].
    unfold bind at 1. unfold call. exact Hrun.
Qed.

Lemma history_append_run (w : World) (h : list string) (item : string) :
  history w = Some h ->
  exists w',
    history_append item w = (Returns tt, w') /\
    history w' = Some (h ++ [item])%list.
Proof.
  intros Hh. unfold history_append.
  rewrite (bind_returns _ _ _ _ _ (get_history_run w h Hh)).
  eexists; split; reflexivity.
Qed.

Lemma label_contains_pair (timestamp mat_a mat_b : string) :
  contains (label timestamp mat_a mat_b) (mat_a ++ " vs " ++ mat_b).
Proof.
  unfold label. found_between ("[" ++ timestamp ++ "] ") "".
Qed.

(** One run of the script returns; it leaves the records in place and
    adds exactly one, for the entered pair, when the button was pressed. *)
Lemma main_run (env : Env) (ui : Inputs) (w : World) :
  exists w',
    main env ui w = (Returns tt, w') /\
    exists new,
      history w' = Some (records w ++ new)%list /\
      if button ui
      then exists timestamp, new = [label timestamp (mat_a ui) (mat_b ui)]
      else new = [].
Proof.
  unfold main.
  destruct (init_history_run w) as (w0 & Hinit & Hh0 & _).
  rewrite (bind_returns _ _ _ _ _ Hinit).
  rewrite (bind_returns _ _ _ _ _ (get_history_run w0 _ Hh0)).
  destruct (show_items_run (records w) 0 w0) as (w1 & Hshow & Hh1).
  rewrite (bind_returns _ _ _ _ _ Hshow).
  rewrite Hh0 in Hh1.
  destruct (button ui).
  - destruct (ScoutSpec.search_returns env (mat_a ui) (mat_b ui) w1)
      as (raw_data & Hsearch).
    rewrite (bind_returns _ _ _ _ _ Hsearch).
    match goal with
    | |- context [AnalystAgent.analyze env ?self raw_data ?a ?b] =>
        destruct (AnalystSpec.analyze_returns env self raw_data a b
                    (log (EvSearch (ScoutAgent.query_of a b) 5 true) w1))
          as (final_report & ev & Hanalyze)
    end.
    rewrite (bind_returns _ _ _ _ _ Hanalyze).
    unfold st_markdown. unfold bind at 1. unfold call at 1.
    unfold bind at 1. unfold call at 1.
    match goal with
    | |- context [history_append ?item ?w2] =>
        destruct (history_append_run w2 (records w) item Hh1)
          as (w' & Happend & Hh')
    end.
    exists w'. split; [exact Happend |].
    eexists. split; [exact Hh' |]. eexists. reflexivity.
  - exists w1. split; [reflexivity |].
    exists []. split; [now rewrite app_nil_r | reflexivity].
Qed.

(** C8.  A session is a sequence of runs of the script, each with or
    without the button pressed.  Every session returns; the records present
    before it are still there, unchanged and in place, followed by exactly
    one new record per run with the button pressed, in the order of the runs;
    each new record is the label of its run, which embeds the pair of
    subject names entered in that run. *)
Theorem session_log_is_append_only
  (env : Env) (interactions : list Inputs) (w : World) :
  exists w' new,
    session env interactions w = (Returns tt, w') /\
    records w' = (records w ++ new)%list /\
    List.length new = List.length (filter button interactions) /\
    Forall2 (fun ui record =>
               (exists timestamp,
                  record = label timestamp (mat_a ui) (mat_b ui)) /\
               contains record (mat_a ui ++ " vs " ++ mat_b ui))
            (filter button interactions) new.
Proof.
  revert w; induction interactions as [| ui rest IH]; intros w.
  - exists w, []. cbn. rewrite app_nil_r. repeat split. constructor.
  - destruct (main_run env ui w) as (w1 & Hmain & new1 & Hh1 & Hnew1).
    destruct (IH w1) as (w' & new2 & Hrest & Hrec & Hlen & Hall).
    exists w', (new1 ++ new2)%list.
    cbn [session]. rewrite (bind_returns _ _ _ _ _ Hmain).
    split; [exact Hrest |].
    split.
    { rewrite Hrec. unfold records at 1. rewrite Hh1. now rewrite app_assoc. }
    cbn [filter]. destruct (button ui).
    + destruct Hnew1 as [timestamp ->]. cbn [app List.length].
      split; [now rewrite Hlen |].
      constructor; [| exact Hall].
      split; [now exists timestamp | apply label_contains_pair].
    + subst new1. cbn [app]. split; [exact Hlen | exact Hall].
Qed.

(** C6.  The fallback outputs depend on the two subject names only.  Two
    runs of [search] that both take the fallback branch return the same
    text, whatever the two providers did and whatever had happened before;
    two runs of [analyze] that both take the fallback path return the same
    report, whatever the evidence, the keys and the providers; and these
    texts are [cached_fallback] and [_mock_analysis] of the two names. *)
Theorem fallback_outputs_depend_only_on_subjects
  (env1 env2 : Env) (w1 w2 : World) (mat_a mat_b : string) :
  (provider_raises (answer env1 mat_a mat_b w1) = true \/
   zero_results (answer env1 mat_a mat_b w1) = true ->
   provider_raises (answer env2 mat_a mat_b w2) = true \/
   zero_results (answer env2 mat_a mat_b w2) = true ->
   fst (ScoutAgent.search env1 mat_a mat_b w1) =
   fst (ScoutAgent.search env2 mat_a mat_b w2) /\
   fst (ScoutAgent.search env1 mat_a mat_b w1) =
   Returns (ScoutAgent.cached_fallback mat_a mat_b)) /\
  (forall (self1 self2 : AnalystAgent.t) (data1 data2 : string),
     fallback_mode env1 self1 = true ->
     fallback_mode env2 self2 = true ->
     fst (AnalystAgent.analyze env1 self1 data1 mat_a mat_b w1) =
     fst (AnalystAgent.analyze env2 self2 data2 mat_a mat_b w2) /\
     fst (AnalystAgent.analyze env1 self1 data1 mat_a mat_b w1) =
     Returns (AnalystAgent._mock_analysis mat_a mat_b)).
Proof.
  split.
  - intros H1 H2.
    rewrite (ScoutSpec.search_falls_back env1 mat_a mat_b w1 H1).
    rewrite (ScoutSpec.search_falls_back env2 mat_a mat_b w2 H2).
    split; reflexivity.
  - intros self1 self2 data1 data2 H1 H2.
    rewrite (AnalystSpec.analyze_fallback_run env1 self1 data1 mat_a mat_b w1 H1).
    rewrite (AnalystSpec.analyze_fallback_run env2 self2 data2 mat_a mat_b w2 H2).
    split; reflexivity.
Qed.

Lemma fallback_outputs_depend_only_on_subjects_witness :
  fst (ScoutAgent.search Doubles.blocked "Bamboo Fiber" "Cotton" fresh) =
  fst (ScoutAgent.search Doubles.half_way "Bamboo Fiber" "Cotton"
                         (log (EvSleep 2) fresh)) /\
  fst (AnalystAgent.analyze Doubles.blocked Doubles.without_key "one"
                            "Bamboo Fiber" "Cotton" fresh) =
  fst (AnalystAgent.analyze Doubles.half_way Doubles.with_key "two"
                            "Bamboo Fiber" "Cotton" (log (EvSleep 2) fresh)).
Proof.
  pose proof (fallback_outputs_depend_only_on_subjects
                Doubles.blocked Doubles.half_way fresh (log (EvSleep 2) fresh)
                "Bamboo Fiber" "Cotton") as [Hsearch Hanalyze].
  split.
  - apply (proj1 (Hsearch (or_introl eq_refl) (or_introl eq_refl))).
  - apply (proj1 (Hanalyze Doubles.without_key Doubles.with_key "one" "two"
                           eq_refl eq_refl)).
Defined.

End PipelineSpec.

(** * Further properties of the code *)

(** ** The scout: one attempt, and when it falls back *)

Module ScoutExtra.
Import PyStr Effects ScoutAgent Observations StrFacts.

Lemma query_contains_subjects (mat_a mat_b : string) :
  contains (query_of mat_a mat_b) mat_a /\
  contains (query_of mat_a mat_b) mat_b /\
  contains (query_of mat_a mat_b) "filetype:pdf".
Proof.
  unfold query_of. cbn [append]. repeat split; find_text.
Qed.

(** A text made of entries begins with the word "Source". *)
Lemma entries_start_with_source (res : SearchResult) (rest : list SearchResult) :
  startswith (String.concat "" (map entry (res :: rest))) "Source: " = true.
Proof.
  cbn [map]. rewrite concat_cons. apply prefix_append.
  unfold entry. eexists. same_text.
Qed.

Lemma fallback_starts_with_line_feed (mat_a mat_b : string) :
  startswith (cached_fallback mat_a mat_b) "Source: " = false.
Proof. reflexivity. Qed.

(** The three ways [search] can go, by what the provider does. *)
Lemma search_cases (env : Env) (mat_a mat_b : string) (w : World) :
  (provider_raises (answer env mat_a mat_b w) = true \/
   zero_results (answer env mat_a mat_b w) = true) \/
  exists g res rest,
    answer env mat_a mat_b w = Returns g /\
    breaks g = false /\ yielded g = res :: rest.
Proof.
  unfold answer.
  destruct (googlesearch env _ _ _ _) as [g | e]; cbn.
  - destruct (breaks g) eqn:Hb; [left; left; reflexivity |].
    destruct g as [| e | res g']; cbn in *.
    + left; right; reflexivity.
    + discriminate.
    + right. exists (Yield res g'), res, (yielded g'). auto.
  - left; left; reflexivity.
Qed.

Lemma search_live_text (env : Env) (mat_a mat_b : string) (w : World)
  (g : Generator) :
  answer env mat_a mat_b w = Returns g ->
  breaks g = false ->
  yielded g <> [] ->
  fst (search env mat_a mat_b w) =
  Returns (String.concat "" (map entry (yielded g))).
Proof.
  intros Hans Hok Hne. unfold answer in Hans.
  unfold search, try_except, bind, call, lift, raise, ret.
  rewrite Hans, (ScoutSpec.for_res_completes g "" Hok). cbn [append].
  destruct (yielded g) as [| res rest]; [contradiction |].
  cbn [map]. rewrite concat_cons.
  now rewrite (truthy_append _ _ (ScoutSpec.entry_truthy res)).
Qed.

(** X1.  Whatever the provider does, [search] asks it exactly once, for at
    most five results in advanced form, with a query that holds both
    subject names and the restriction to PDF files; it makes no other call
    and leaves the session history alone. *)
Theorem search_makes_one_bounded_call
  (env : Env) (mat_a mat_b : string) (w : World) :
  trace (snd (search env mat_a mat_b w)) =
  (trace w ++ [EvSearch (query_of mat_a mat_b) 5 true])%list /\
  history (snd (search env mat_a mat_b w)) = history w /\
  contains (query_of mat_a mat_b) mat_a /\
  contains (query_of mat_a mat_b) mat_b /\
  contains (query_of mat_a mat_b) "filetype:pdf".
Proof.
  destruct (ScoutSpec.search_returns env mat_a mat_b w) as [text ->].
  split; [reflexivity |]. split; [reflexivity |].
  apply query_contains_subjects.
Qed.

(** X2.  [search] returns the cached fallback text exactly when the
    provider raised or yielded nothing; in every other case it returns the
    entries of all the results yielded, a text that begins with "Source: "
    and therefore cannot be taken for the fallback.  Results read before the
    provider raised are never returned. *)
Theorem search_falls_back_exactly_on_failure
  (env : Env) (mat_a mat_b : string) (w : World) :
  (fst (search env mat_a mat_b w) = Returns (cached_fallback mat_a mat_b) <->
   provider_raises (answer env mat_a mat_b w) = true \/
   zero_results (answer env mat_a mat_b w) = true) /\
  (fst (search env mat_a mat_b w) = Returns (cached_fallback mat_a mat_b) \/
   exists g text,
     answer env mat_a mat_b w = Returns g /\
     text = String.concat "" (map entry (yielded g)) /\
     fst (search env mat_a mat_b w) = Returns text /\
     startswith text "Source: " = true).
Proof.
  destruct (search_cases env mat_a mat_b w)
    as [Hfail | (g & res & rest & Hans & Hok & Hy)].
  - pose proof (ScoutSpec.search_falls_back env mat_a mat_b w Hfail) as Hfb.
    split; [split; auto | left; exact Hfb].
  - assert (Hlive : fst (search env mat_a mat_b w) =
                    Returns (String.concat "" (map entry (yielded g)))).
    { apply search_live_text; [exact Hans | exact Hok |].
      rewrite Hy. discriminate. }
    assert (Hsrc : startswith (String.concat "" (map entry (yielded g)))
                              "Source: " = true).
    { rewrite Hy. apply entries_start_with_source. }
    split.
    + split.
      * intros Hfb. rewrite Hlive in Hfb. injection Hfb as Heq.
        rewrite Heq in Hsrc.
        rewrite fallback_starts_with_line_feed in Hsrc. discriminate.
      * intros [Hr | Hz].
        -- rewrite Hans in Hr. cbn in Hr. congruence.
        -- rewrite Hans in Hz. destruct g; cbn in *; discriminate.
    + right. exists g, (String.concat "" (map entry (yielded g))). auto.
Qed.

Lemma search_falls_back_exactly_on_failure_witness :
  fst (search Doubles.half_way "Bamboo Fiber" "Cotton" App.fresh) =
  Returns (cached_fallback "Bamboo Fiber" "Cotton").
Proof.
  apply (proj2 (proj1 (search_falls_back_exactly_on_failure
                         Doubles.half_way "Bamboo Fiber" "Cotton" App.fresh))).
  left; reflexivity.
Defined.

End ScoutExtra.

(** ** The analyst: always a report, by one call *)

Module AnalystExtra.
Import PyStr Effects AnalystAgent Observations StrFacts.

Lemma mock_says_no_key (mat_a mat_b : string) :
  contains (_mock_analysis mat_a mat_b) "(Safe Mode)" /\
  contains (_mock_analysis mat_a mat_b) "(No API Key detected)".
Proof.
  unfold _mock_analysis, nl. cbn [append]. split; find_text.
Qed.

(** X3.  [analyze] never raises and does its work by exactly one call to
    the outside: on the fallback path a sleep of two seconds, after which it
    returns the templated report; on the live path the chat call, whose text
    or whose error report it returns.  It never does both, and it leaves the
    session history alone. *)
Theorem analyze_always_returns_after_one_call
  (env : Env) (self : t) (search_data mat_a mat_b : string) (w : World) :
  exists text ev,
    analyze env self search_data mat_a mat_b w = (Returns text, log ev w) /\
    history (log ev w) = history w /\
    ((fallback_mode env self = true /\
      ev = EvSleep 2 /\ text = _mock_analysis mat_a mat_b) \/
     (fallback_mode env self = false /\
      ev = EvGenerate (live_request self search_data mat_a mat_b) /\
      ((exists e,
          chat_openai env (List.length (trace w))
            (live_request self search_data mat_a mat_b) = Raised e /\
          text = error_report e) \/
       chat_openai env (List.length (trace w))
         (live_request self search_data mat_a mat_b) = Returns text))).
Proof.
  destruct (fallback_mode env self) eqn:Hmode.
  - exists (_mock_analysis mat_a mat_b), (EvSleep 2).
    split; [now apply AnalystSpec.analyze_fallback_run |].
    split; [reflexivity |]. left. auto.
  - rewrite (AnalystSpec.analyze_live_run env self search_data mat_a mat_b w Hmode).
    destruct (chat_openai env _ _) as [text | e] eqn:Hcall.
    + exists text, (EvGenerate (live_request self search_data mat_a mat_b)).
      split; [reflexivity |]. split; [reflexivity |]. right. auto.
    + exists (error_report e),
             (EvGenerate (live_request self search_data mat_a mat_b)).
      split; [reflexivity |]. split; [reflexivity |]. right.
      split; [reflexivity |]. split; [reflexivity |]. left. now exists e.
Qed.

(** X4.  On the live path the chat model is asked with the model name
    "gpt-4", temperature zero and the very key the agent was built with; the
    user message is "Compare A vs B using this data: " followed by the
    evidence, so it holds both names and the whole evidence verbatim. *)
Theorem analyze_live_request_carries_key_and_evidence
  (env : Env) (self : t) (search_data mat_a mat_b key : string) (w : World) :
  api_key self = Some key ->
  truthy key = true ->
  AI_AVAILABLE env = true ->
  exists content,
    trace (snd (analyze env self search_data mat_a mat_b w)) =
    (trace w ++
     [EvGenerate (mkGenRequest "gpt-4" 0 key
                    [SystemMessage system_prompt; HumanMessage content])])%list /\
    content = "Compare " ++ mat_a ++ " vs " ++ mat_b ++
              " using this data: " ++ search_data /\
    contains content mat_a /\
    contains content mat_b /\
    contains content search_data.
Proof.
  intros Hkey Htruthy Hai.
  assert (Hmode : fallback_mode env self = false).
  { apply AnalystSpec.live_mode; [| exact Hai].
    rewrite Hkey. exact Htruthy. }
  rewrite (AnalystSpec.analyze_live_run env self search_data mat_a mat_b w Hmode).
  eexists. split.
  - cbn [snd log trace]. unfold live_request. rewrite Hkey. reflexivity.
  - split; [reflexivity |].
    split; [cbn [append]; find_text |].
    split; [cbn [append]; find_text |].
    found_between ("Compare " ++ mat_a ++ " vs " ++ mat_b ++
                   " using this data: ") "".
Qed.

Lemma analyze_live_request_carries_key_and_evidence_witness :
  exists content,
    trace (snd (analyze Doubles.live Doubles.with_key "evidence"
                        "Bamboo Fiber" "Cotton" App.fresh)) =
    [EvGenerate (mkGenRequest "gpt-4" 0 "sk-test"
                   [SystemMessage system_prompt; HumanMessage content])] /\
    content = "Compare Bamboo Fiber vs Cotton using this data: evidence".
Proof.
  destruct (analyze_live_request_carries_key_and_evidence
              Doubles.live Doubles.with_key "evidence" "Bamboo Fiber" "Cotton"
              "sk-test" App.fresh eq_refl eq_refl eq_refl)
    as (content & Htrace & Hcontent & _).
  exists content. split; [exact Htrace | exact Hcontent].
Defined.

(** X5.  When the chat integration is not installed, a key makes no
    difference: [analyze] makes no chat call and returns the templated
    report, which says that no API key was detected even though one was
    given. *)
Theorem analyze_without_integration_ignores_key
  (env : Env) (self : t) (search_data mat_a mat_b : string) (w : World) :
  AI_AVAILABLE env = false ->
  key_truthy (api_key self) = true ->
  analyze env self search_data mat_a mat_b w =
  (Returns (_mock_analysis mat_a mat_b), log (EvSleep 2) w) /\
  contains (_mock_analysis mat_a mat_b) "(No API Key detected)".
Proof.
  intros Hai _. split; [| apply mock_says_no_key].
  apply AnalystSpec.analyze_fallback_run.
  unfold fallback_mode. rewrite Hai. apply orb_true_r.
Qed.

Lemma analyze_without_integration_ignores_key_witness :
  fst (analyze Doubles.half_way Doubles.with_key "evidence" "Bamboo Fiber"
               "Cotton" App.fresh) =
  Returns (_mock_analysis "Bamboo Fiber" "Cotton").
Proof.
  refine (f_equal fst
    (proj1 (analyze_without_integration_ignores_key
              Doubles.half_way Doubles.with_key "evidence" "Bamboo Fiber"
              "Cotton" App.fresh eq_refl eq_refl))).
Defined.

(** X6.  For every pair of names the templated report heads its table
    with both names, marks itself as produced in Safe Mode, and ends with the
    sentence that recommends the first subject over the second, whichever
    of the two names is the longer. *)
Theorem mock_analysis_recommends_first_over_second (mat_a mat_b : string) :
  contains (_mock_analysis mat_a mat_b)
    ("| Impact Category | **" ++ mat_a ++ "** | **" ++ mat_b ++ "** | Status |") /\
  contains (_mock_analysis mat_a mat_b) "(Safe Mode)" /\
  contains (_mock_analysis mat_a mat_b)
    ("**" ++ mat_a ++ "** is recommended. The extracted data suggests it outperforms **" ++
     mat_b ++ "** across all major environmental impact categories.").
Proof.
  split; [| split].
  - unfold _mock_analysis, nl. cbn [append]. find_text.
  - apply mock_says_no_key.
  - unfold _mock_analysis, nl. cbn [append]. find_text.
Qed.

End AnalystExtra.

(** ** The page: what one run displays, calls and records *)

Module AppExtra.
Import PyStr Effects Observations Accounting StrFacts.
Import App.

Lemma listing_cons (i : nat) (item : string) (rest : list string) :
  listing i (item :: rest) =
  EvText (str_of_nat (i + 1) ++ ". " ++ item) :: listing (S i) rest.
Proof. reflexivity. Qed.

Lemma listing_length (i : nat) (items : list string) :
  List.length (listing i items) = List.length items.
Proof.
  unfold listing.
  rewrite length_map, length_combine, length_seq. apply Nat.min_id.
Qed.

Lemma listing_nth (items : list string) (i k : nat) :
  nth_error (listing i items) k =
  option_map (fun item => EvText (str_of_nat (i + k + 1) ++ ". " ++ item))
             (nth_error items k).
Proof.
  revert i k; induction items as [| item rest IH]; intros i k.
  - destruct k; reflexivity.
  - rewrite listing_cons. destruct k as [| k]; cbn [nth_error].
    + now rewrite Nat.add_0_r.
    + rewrite IH. now replace (S i + k) with (i + S k) by lia.
Qed.

Lemma listing_app (items more : list string) (i : nat) :
  listing i (items ++ more) =
  (listing i items ++ listing (i + List.length items) more)%list.
Proof.
  revert i; induction items as [| item rest IH]; intros i.
  - cbn [app List.length]. now rewrite Nat.add_0_r.
  - cbn [app List.length]. rewrite !listing_cons, IH. cbn [app].
    now replace (S i + List.length rest) with (i + S (List.length rest)) by lia.
Qed.

Lemma count_app (p : Event -> bool) (l1 l2 : list Event) :
  count p (l1 ++ l2) = count p l1 + count p l2.
Proof. unfold count. now rewrite filter_app, length_app. Qed.

Lemma count_listing (p : Event -> bool) (i : nat) (items : list string) :
  (forall body, p (EvText body) = false) -> count p (listing i items) = 0.
Proof.
  intros Hp. revert i; induction items as [| item rest IH]; intros i.
  - reflexivity.
  - rewrite listing_cons. unfold count in *. cbn [filter].
    rewrite Hp. apply IH.
Qed.

Lemma count_text_listing (i : nat) (items : list string) :
  count is_text (listing i items) = List.length items.
Proof.
  revert i; induction items as [| item rest IH]; intros i.
  - reflexivity.
  - rewrite listing_cons. unfold count in *. cbn [filter is_text List.length].
    now rewrite IH.
Qed.

(** The sidebar loop: it returns, displays the listing and nothing else. *)
Lemma show_items_exact (items : list string) (i : nat) (w : World) :
  show_items i items w =
  (Returns tt, mkWorld (trace w ++ listing i items)%list (history w)).
Proof.
  revert i w; induction items as [| item rest IH]; intros i w.
  - cbn. rewrite app_nil_r. now destruct w.
  - cbn [show_items]. unfold st_text, bind at 1, call.
    rewrite IH, listing_cons. cbn [log trace history].
    now rewrite <- app_assoc.
Qed.

Lemma init_history_exact (w : World) :
  init_history w = (Returns tt, mkWorld (trace w) (Some (records w))).
Proof.
  unfold init_history, records. destruct w as [tr [h |]]; reflexivity.
Qed.

Lemma sidebar_run {A} (k : M A) (w : World) :
  (init_history ;;;
   items <- get_history ;;
   show_items 0 items ;;; k)%py w = k (after_sidebar w).
Proof.
  unfold bind at 1. rewrite init_history_exact.
  unfold bind at 1, get_history. cbn [history].
  unfold bind at 1. rewrite show_items_exact. reflexivity.
Qed.

(** A run without the button pressed. *)
Lemma main_idle (env : Env) (ui : Inputs) (w : World) :
  button ui = false -> main env ui w = (Returns tt, after_sidebar w).
Proof.
  intros Hb. unfold main. rewrite sidebar_run, Hb. reflexivity.
Qed.

(** [analyze] returns after one sleep or one chat call. *)
Lemma analyze_one_call
  (env : Env) (self : AnalystAgent.t) (search_data mat_a mat_b : string)
  (w : World) :
  exists text ev,
    AnalystAgent.analyze env self search_data mat_a mat_b w =
    (Returns text, log ev w) /\
    is_analysis ev = true.
Proof.
  destruct (fallback_mode env self) eqn:Hmode.
  - rewrite AnalystSpec.analyze_fallback_run by exact Hmode.
    eexists; eexists; split; reflexivity.
  - rewrite AnalystSpec.analyze_live_run by exact Hmode.
    eexists; eexists; split; reflexivity.
Qed.

(** A run with the button pressed: the search, then the analysis of its
    evidence, then the display of the report, the clock and the record. *)
Lemma main_pressed (env : Env) (ui : Inputs) (w : World) :
  button ui = true ->
  exists raw_data final_report ev,
    ScoutAgent.search env (mat_a ui) (mat_b ui) (after_sidebar w) =
    (Returns raw_data,
     log (EvSearch (ScoutAgent.query_of (mat_a ui) (mat_b ui)) 5 true)
         (after_sidebar w)) /\
    AnalystAgent.analyze env (analyst_of ui) raw_data (mat_a ui) (mat_b ui)
      (log (EvSearch (ScoutAgent.query_of (mat_a ui) (mat_b ui)) 5 true)
           (after_sidebar w)) =
    (Returns final_report,
     log ev (log (EvSearch (ScoutAgent.query_of (mat_a ui) (mat_b ui)) 5 true)
                 (after_sidebar w))) /\
    is_analysis ev = true /\
    main env ui w =
    (Returns tt,
     mkWorld
       (trace (after_sidebar w) ++
        [EvSearch (ScoutAgent.query_of (mat_a ui) (mat_b ui)) 5 true;
         ev; EvMarkdown final_report; EvStrftime "%H:%M:%S"])%list
       (Some (records w ++
              [label (strftime env (List.length (trace (after_sidebar w)) + 3)
                               "%H:%M:%S")
                     (mat_a ui) (mat_b ui)])%list)).
Proof.
  intros Hb. unfold main. rewrite sidebar_run, Hb.
  set (w1 := after_sidebar w).
  set (q := ScoutAgent.query_of (mat_a ui) (mat_b ui)).
  destruct (ScoutSpec.search_returns env (mat_a ui) (mat_b ui) w1)
    as (raw_data & Hsearch).
  fold q in Hsearch.
  destruct (analyze_one_call env (analyst_of ui) raw_data (mat_a ui) (mat_b ui)
              (log (EvSearch q 5 true) w1))
    as (final_report & ev & Hanalyze & Hev).
  exists raw_data, final_report, ev.
  split; [exact Hsearch |]. split; [exact Hanalyze |].
  split; [exact Hev |].
  rewrite (PipelineSpec.bind_returns _ _ _ _ _ Hsearch).
  fold (analyst_of ui).
  rewrite (PipelineSpec.bind_returns _ _ _ _ _ Hanalyze).
  unfold st_markdown. unfold bind at 1. unfold call at 1.
  unfold bind at 1. unfold call at 1.
  unfold history_append, bind, get_history.
  subst w1. unfold after_sidebar. cbn [log trace history].
  f_equal. f_equal.
  - now rewrite <- !app_assoc.
  - rewrite !length_app. cbn [List.length].
    match goal with
    | |- context [(?n + 1 + 1 + 1)%nat] =>
        replace (n + 1 + 1 + 1)%nat with (n + 3)%nat by lia
    end.
    reflexivity.
Qed.

(** Every run returns; its trace starts with the listing of the records
    present before it, and the ["history"] key is present afterwards. *)
Lemma main_lists_first (env : Env) (ui : Inputs) (w : World) :
  exists w' rest,
    main env ui w = (Returns tt, w') /\
    trace w' = (trace w ++ listing 0 (records w) ++ rest)%list.
Proof.
  destruct (button ui) eqn:Hb.
  - destruct (main_pressed env ui w Hb)
      as (raw_data & final_report & ev & _ & _ & _ & Hmain).
    eexists. eexists. split; [exact Hmain |].
    cbn [trace after_sidebar]. now rewrite <- app_assoc.
  - exists (after_sidebar w), []. split; [now apply main_idle |].
    cbn [trace after_sidebar]. now rewrite app_nil_r.
Qed.

Lemma main_without_idle_counts (env : Env) (ui : Inputs) (w : World) :
  button ui = false ->
  exists w',
    main env ui w = (Returns tt, w') /\
    (count is_search (trace w') = count is_search (trace w) /\
     count is_analysis (trace w') = count is_analysis (trace w) /\
     count is_markdown (trace w') = count is_markdown (trace w) /\
     count is_strftime (trace w') = count is_strftime (trace w)).
Proof.
  intros Hb. exists (after_sidebar w).
  split; [now apply main_idle |].
  cbn [trace after_sidebar]. rewrite !count_app.
  rewrite !count_listing by reflexivity. repeat split; lia.
Qed.

(** X7.  The sidebar loop returns, does not touch the history, and
    displays one line per record and nothing else: line [k], counted from
    zero, is the decimal number [k + 1], a full stop, a blank and the record
    of index [k]. *)
Theorem show_items_numbers_from_one (items : list string) (w : World) :
  exists w' shown,
    show_items 0 items w = (Returns tt, w') /\
    history w' = history w /\
    trace w' = (trace w ++ shown)%list /\
    List.length shown = List.length items /\
    forall k,
      nth_error shown k =
      option_map (fun item => EvText (str_of_nat (k + 1) ++ ". " ++ item))
                 (nth_error items k).
Proof.
  exists (mkWorld (trace w ++ listing 0 items)%list (history w)),
         (listing 0 items).
  split; [apply show_items_exact |].
  split; [reflexivity |]. split; [reflexivity |].
  split; [apply listing_length |].
  intros k. apply (listing_nth items 0 k).
Qed.

(** X8.  A run in which the button is not pressed returns and calls
    neither the search, nor the sleep or the chat model, nor the clock, and
    displays no report: it only lists the records, which it leaves as they
    are, creating the empty history when there was none. *)
Theorem main_without_button_only_lists
  (env : Env) (ui : Inputs) (w : World) :
  button ui = false ->
  exists w',
    main env ui w = (Returns tt, w') /\
    trace w' = (trace w ++ listing 0 (records w))%list /\
    history w' = Some (records w) /\
    count is_search (trace w') = count is_search (trace w) /\
    count is_analysis (trace w') = count is_analysis (trace w) /\
    count is_strftime (trace w') = count is_strftime (trace w) /\
    count is_markdown (trace w') = count is_markdown (trace w).
Proof.
  intros Hb. exists (after_sidebar w).
  split; [now apply main_idle |].
  split; [reflexivity |]. split; [reflexivity |].
  cbn [trace after_sidebar]. rewrite !count_app.
  rewrite !count_listing by reflexivity. repeat split; lia.
Qed.

Lemma main_without_button_only_lists_witness :
  main Doubles.live (mkInputs "sk-test" "Bamboo Fiber" "Cotton" false)
       (mkWorld [] (Some ["[12:00:00] Hemp vs Jute"])) =
  (Returns tt,
   mkWorld [EvText "1. [12:00:00] Hemp vs Jute"]
           (Some ["[12:00:00] Hemp vs Jute"])).
Proof.
  destruct (main_without_button_only_lists
              Doubles.live (mkInputs "sk-test" "Bamboo Fiber" "Cotton" false)
              (mkWorld [] (Some ["[12:00:00] Hemp vs Jute"])) eq_refl)
    as (w' & Hmain & Htrace & Hhist & _).
  rewrite Hmain. destruct w' as [tr h]. cbn in Htrace, Hhist.
  now rewrite Htrace, Hhist.
Defined.

(** X9.  A run in which the button is pressed returns and does, in this
    order and once each: the listing of the earlier records, the search, the
    analysis of the very evidence the search returned (by the sleep or by
    the chat call), the display of the very report the analysis returned,
    the reading of the clock in the format hours, minutes, seconds, and the
    appending of one record to the history. *)
Theorem main_runs_search_then_analysis_then_records
  (env : Env) (ui : Inputs) (w : World) :
  button ui = true ->
  exists raw_data final_report ev timestamp w',
    main env ui w = (Returns tt, w') /\
    fst (ScoutAgent.search env (mat_a ui) (mat_b ui) (after_sidebar w)) =
    Returns raw_data /\
    fst (AnalystAgent.analyze env (analyst_of ui) raw_data (mat_a ui) (mat_b ui)
           (log (EvSearch (ScoutAgent.query_of (mat_a ui) (mat_b ui)) 5 true)
                (after_sidebar w))) =
    Returns final_report /\
    is_analysis ev = true /\
    trace w' =
    (trace w ++ listing 0 (records w) ++
     [EvSearch (ScoutAgent.query_of (mat_a ui) (mat_b ui)) 5 true;
      ev; EvMarkdown final_report; EvStrftime "%H:%M:%S"])%list /\
    history w' =
    Some (records w ++ [label timestamp (mat_a ui) (mat_b ui)])%list.
Proof.
  intros Hb.
  destruct (main_pressed env ui w Hb)
    as (raw_data & final_report & ev & Hsearch & Hanalyze & Hev & Hmain).
  exists raw_data, final_report, ev. eexists. eexists.
  split; [exact Hmain |].
  split; [now rewrite Hsearch |].
  split; [now rewrite Hanalyze |].
  split; [exact Hev |].
  split; [| reflexivity].
  cbn [trace after_sidebar]. now rewrite <- app_assoc.
Qed.

Lemma main_runs_search_then_analysis_then_records_witness :
  exists w',
    main Doubles.live (mkInputs "sk-test" "Bamboo Fiber" "Cotton" true) fresh =
    (Returns tt, w') /\
    history w' = Some ["[12:00:00] Bamboo Fiber vs Cotton"].
Proof.
  destruct (main_runs_search_then_analysis_then_records
              Doubles.live (mkInputs "sk-test" "Bamboo Fiber" "Cotton" true)
              fresh eq_refl)
    as (raw_data & final_report & ev & timestamp & w' & Hmain & _).
  exists w'. split; [exact Hmain |].
  vm_compute in Hmain. injection Hmain as <-. reflexivity.
Defined.

(** X10.  Safe Mode.  When the key field is left empty and the button is
    pressed, then whatever the search and the chat providers would answer,
    the run calls the search, sleeps two seconds, displays the templated
    report of the two names and reads the clock: the chat model is never
    called. *)
Theorem main_with_empty_key_runs_in_safe_mode
  (env : Env) (ui : Inputs) (w : World) :
  button ui = true ->
  openai_key ui = "" ->
  exists w',
    main env ui w = (Returns tt, w') /\
    trace w' =
    (trace w ++ listing 0 (records w) ++
     [EvSearch (ScoutAgent.query_of (mat_a ui) (mat_b ui)) 5 true;
      EvSleep 2;
      EvMarkdown (AnalystAgent._mock_analysis (mat_a ui) (mat_b ui));
      EvStrftime "%H:%M:%S"])%list /\
    count is_generate (trace w') = count is_generate (trace w).
Proof.
  intros Hb Hkey.
  destruct (main_pressed env ui w Hb)
    as (raw_data & final_report & ev & _ & Hanalyze & _ & Hmain).
  rewrite AnalystSpec.analyze_fallback_run in Hanalyze.
  2:{ unfold fallback_mode, analyst_of. cbn. now rewrite Hkey. }
  injection Hanalyze as Hreport Hev.
  apply app_inj_tail in Hev as [_ Hev].
  subst final_report ev.
  eexists. split; [exact Hmain |].
  cbn [trace after_sidebar]. split; [now rewrite <- app_assoc |].
  rewrite !count_app. rewrite count_listing by reflexivity.
  cbn. lia.
Qed.

Lemma main_with_empty_key_runs_in_safe_mode_witness :
  exists w',
    main Doubles.live (mkInputs "" "Bamboo Fiber" "Cotton" true) fresh =
    (Returns tt, w') /\
    count is_generate (trace w') = 0.
Proof.
  destruct (main_with_empty_key_runs_in_safe_mode
              Doubles.live (mkInputs "" "Bamboo Fiber" "Cotton" true) fresh
              eq_refl eq_refl)
    as (w' & Hmain & _ & Hcount).
  exists w'. split; [exact Hmain | exact Hcount].
Defined.

(** X11.  When a key is given, the chat integration is installed and the
    search is refused or finds nothing, the evidence handed to the chat model
    is the cached fallback text: the user message of the one chat call of the
    run holds the fallback marker. *)
Theorem main_hands_fallback_evidence_to_chat_model
  (env : Env) (ui : Inputs) (w : World) :
  button ui = true ->
  truthy (openai_key ui) = true ->
  AI_AVAILABLE env = true ->
  provider_raises (answer env (mat_a ui) (mat_b ui) (after_sidebar w)) = true \/
  zero_results (answer env (mat_a ui) (mat_b ui) (after_sidebar w)) = true ->
  exists w' final_report content,
    main env ui w = (Returns tt, w') /\
    trace w' =
    (trace w ++ listing 0 (records w) ++
     [EvSearch (ScoutAgent.query_of (mat_a ui) (mat_b ui)) 5 true;
      EvGenerate (mkGenRequest "gpt-4" 0 (openai_key ui)
                    [SystemMessage AnalystAgent.system_prompt;
                     HumanMessage content]);
      EvMarkdown final_report; EvStrftime "%H:%M:%S"])%list /\
    content = "Compare " ++ mat_a ui ++ " vs " ++ mat_b ui ++
              " using this data: " ++
              ScoutAgent.cached_fallback (mat_a ui) (mat_b ui) /\
    contains content ScoutAgent.SYSTEM_NOTE.
Proof.
  intros Hb Hkey Hai Hfail.
  destruct (main_pressed env ui w Hb)
    as (raw_data & final_report & ev & Hsearch & Hanalyze & _ & Hmain).
  pose proof (ScoutSpec.search_falls_back env _ _ _ Hfail) as Hfb.
  rewrite Hsearch in Hfb. cbn [fst] in Hfb. injection Hfb as ->.
  rewrite AnalystSpec.analyze_live_run in Hanalyze.
  2:{ apply AnalystSpec.live_mode; [exact Hkey | exact Hai]. }
  injection Hanalyze as _ Hev.
  apply app_inj_tail in Hev as [_ Hev]. subst ev.
  exists (snd (main env ui w)), final_report.
  eexists. split; [now rewrite Hmain |].
  split; [| split; [reflexivity |]].
  - rewrite Hmain. cbn [snd trace after_sidebar].
    now rewrite <- app_assoc.
  - unfold ScoutAgent.cached_fallback, nl. cbn [append]. find_text.
Qed.

Lemma main_hands_fallback_evidence_to_chat_model_witness :
  exists w',
    main Doubles.blocked (mkInputs "sk-test" "Bamboo Fiber" "Cotton" true) fresh =
    (Returns tt, w') /\
    count is_generate (trace w') = 1.
Proof.
  destruct (main_hands_fallback_evidence_to_chat_model
              Doubles.blocked (mkInputs "sk-test" "Bamboo Fiber" "Cotton" true)
              fresh eq_refl eq_refl eq_refl (or_introl eq_refl))
    as (w' & final_report & content & Hmain & Htrace & _).
  exists w'. split; [exact Hmain |].
  rewrite Htrace. reflexivity.
Defined.

(** One run adds one search, one analysis call, one displayed report and
    one reading of the clock when the button is pressed, and none of them
    otherwise. *)
Lemma main_counts (env : Env) (ui : Inputs) (w : World) :
  exists w',
    main env ui w = (Returns tt, w') /\
    let n := if button ui then 1 else 0 in
    count is_search (trace w') = count is_search (trace w) + n /\
    count is_analysis (trace w') = count is_analysis (trace w) + n /\
    count is_markdown (trace w') = count is_markdown (trace w) + n /\
    count is_strftime (trace w') = count is_strftime (trace w) + n.
Proof.
  destruct (button ui) eqn:Hb.
  - destruct (main_pressed env ui w Hb)
      as (raw_data & final_report & ev & _ & _ & Hev & Hmain).
    eexists. split; [exact Hmain |].
    cbn [trace after_sidebar]. rewrite !count_app.
    rewrite !count_listing by reflexivity.
    unfold count. cbn [filter is_search is_markdown is_strftime].
    assert (Hs : is_search ev = false).
    { destruct ev; cbn in Hev; try discriminate; reflexivity. }
    assert (Hm : is_markdown ev = false).
    { destruct ev; cbn in Hev; try discriminate; reflexivity. }
    assert (Hc : is_strftime ev = false).
    { destruct ev; cbn in Hev; try discriminate; reflexivity. }
    rewrite Hs, Hm, Hc, Hev. cbn. repeat split; lia.
  - destruct (main_without_idle_counts env ui w Hb) as (w' & Hmain & H).
    exists w'. split; [exact Hmain |]. cbn. rewrite !Nat.add_0_r. exact H.
Qed.

(** X12.  Over a whole session, whatever the providers answer, the
    number of searches, of analysis calls (a sleep or a chat call), of
    displayed reports and of readings of the clock each grows by exactly the
    number of runs in which the button was pressed: one attempt per
    comparison, never a retry, and nothing when the page is merely redrawn. *)
Theorem session_calls_once_per_press
  (env : Env) (interactions : list Inputs) (w : World) :
  exists w',
    session env interactions w = (Returns tt, w') /\
    count is_search (trace w') = count is_search (trace w) + presses interactions /\
    count is_analysis (trace w') =
    count is_analysis (trace w) + presses interactions /\
    count is_markdown (trace w') =
    count is_markdown (trace w) + presses interactions /\
    count is_strftime (trace w') =
    count is_strftime (trace w) + presses interactions.
Proof.
  revert w; induction interactions as [| ui rest IH]; intros w.
  - exists w. split; [reflexivity |]. unfold presses. cbn. repeat split; lia.
  - destruct (main_counts env ui w) as (w1 & Hmain & H1 & H2 & H3 & H4).
    destruct (IH w1) as (w' & Hrest & R1 & R2 & R3 & R4).
    exists w'. cbn [session].
    rewrite (PipelineSpec.bind_returns _ _ _ _ _ Hmain).
    split; [exact Hrest |].
    unfold presses in *. cbn [filter].
    destruct (button ui); cbn [List.length]; repeat split; lia.
Qed.

(** X13.  The sidebar is drawn before the record of the run is appended:
    a run with the button pressed lists the earlier records only, so the
    number of displayed lines grows by the number of earlier records while
    the history grows by one; the new record appears, numbered after the
    earlier ones, in the listing of the next run, whether or not the button
    is pressed then. *)
Theorem new_record_is_listed_from_next_run
  (env : Env) (ui next : Inputs) (w : World) :
  button ui = true ->
  exists w' timestamp w'',
    main env ui w = (Returns tt, w') /\
    records w' = (records w ++ [label timestamp (mat_a ui) (mat_b ui)])%list /\
    count is_text (trace w') =
    count is_text (trace w) + List.length (records w) /\
    main env next w' = (Returns tt, w'') /\
    In (EvText (str_of_nat (List.length (records w) + 1) ++ ". " ++
                label timestamp (mat_a ui) (mat_b ui)))
       (trace w'').
Proof.
  intros Hb.
  destruct (main_pressed env ui w Hb)
    as (raw_data & final_report & ev & _ & _ & Hev & Hmain).
  match type of Hmain with
  | _ = (_, ?w1) => set (w' := w1) in *
  end.
  destruct (main_lists_first env next w') as (w'' & rest & Hnext & Htrace).
  exists w'. eexists. exists w''.
  split; [exact Hmain |].
  split; [reflexivity |].
  split.
  { subst w'. cbn [trace after_sidebar]. rewrite !count_app.
    rewrite count_text_listing.
    assert (Ht : is_text ev = false).
    { destruct ev; cbn in Hev; try discriminate; reflexivity. }
    unfold count. cbn [filter is_text]. rewrite Ht. cbn [List.length]. lia. }
  split; [exact Hnext |].
  rewrite Htrace. apply in_or_app. right. apply in_or_app. left.
  subst w'. cbn [records history].
  rewrite listing_app. apply in_or_app. right.
  cbn [Nat.add]. rewrite listing_cons. left. reflexivity.
Qed.

Lemma new_record_is_listed_from_next_run_witness :
  exists w' w'',
    main Doubles.live (mkInputs "" "Hemp" "Jute" true) fresh = (Returns tt, w') /\
    main Doubles.live (mkInputs "" "Flax" "Wool" false) w' = (Returns tt, w'') /\
    In (EvText "1. [12:00:00] Hemp vs Jute") (trace w'').
Proof.
  destruct (new_record_is_listed_from_next_run
              Doubles.live (mkInputs "" "Hemp" "Jute" true)
              (mkInputs "" "Flax" "Wool" false) fresh eq_refl)
    as (w' & timestamp & w'' & Hmain & Hrec & _ & Hnext & _).
  exists w', w''. split; [exact Hmain |]. split; [exact Hnext |].
  vm_compute in Hmain. injection Hmain as <-.
  vm_compute in Hnext. injection Hnext as <-.
  cbn [trace In]. do 4 right. left. reflexivity.
Defined.

(** X14.  A failed analysis still counts as a comparison.  When a key is
    given, the chat integration is installed and the chat call raises [e],
    the run does not raise: it displays the error report of [e] as the
    report, runs no templated fallback (no sleep), and appends the record of
    the pair to the history all the same. *)
Theorem main_shows_and_records_failed_analysis
  (env : Env) (ui : Inputs) (w : World) (e : exn) :
  button ui = true ->
  truthy (openai_key ui) = true ->
  AI_AVAILABLE env = true ->
  (forall n req, chat_openai env n req = Raised e) ->
  exists w' timestamp,
    main env ui w = (Returns tt, w') /\
    In (EvMarkdown (AnalystAgent.error_report e)) (trace w') /\
    count is_sleep (trace w') = count is_sleep (trace w) /\
    history w' =
    Some (records w ++ [label timestamp (mat_a ui) (mat_b ui)])%list.
Proof.
  intros Hb Hkey Hai Hchat.
  destruct (main_pressed env ui w Hb)
    as (raw_data & final_report & ev & _ & Hanalyze & _ & Hmain).
  rewrite AnalystSpec.analyze_live_run in Hanalyze.
  2:{ apply AnalystSpec.live_mode; [exact Hkey | exact Hai]. }
  rewrite Hchat in Hanalyze.
  injection Hanalyze as Hreport Hev.
  apply app_inj_tail in Hev as [_ Hev]. subst final_report ev.
  eexists. eexists. split; [exact Hmain |].
  cbn [trace history after_sidebar].
  split; [| split; [| reflexivity]].
  - apply in_or_app. right. cbn [In]. auto.
  - rewrite !count_app. rewrite count_listing by reflexivity.
    cbn. lia.
Qed.

Lemma main_shows_and_records_failed_analysis_witness :
  exists w',
    main Doubles.blocked (mkInputs "sk-test" "Bamboo Fiber" "Cotton" true) fresh =
    (Returns tt, w') /\
    history w' = Some ["[12:00:00] Bamboo Fiber vs Cotton"].
Proof.
  destruct (main_shows_and_records_failed_analysis
              Doubles.blocked (mkInputs "sk-test" "Bamboo Fiber" "Cotton" true)
              fresh (Exception "Incorrect API key provided")
              eq_refl eq_refl eq_refl (fun _ _ => eq_refl))
    as (w' & timestamp & Hmain & _).
  exists w'. split; [exact Hmain |].
  vm_compute in Hmain. injection Hmain as <-. reflexivity.
Defined.

End AppExtra.
